(** * A feed-forward neural network: forward pass, training step, model files

    Shallow embedding of [network.py] (class [Network]) and proofs about it.

    Conventions of the embedding.
    - The source is Python 3: the class-level lambdas are called as plain
      functions (Python 2 would make them unbound methods), and the variable
      of a list comprehension is local to the comprehension.
    - A Python number is an [Int] (unbounded, exact) or a [Float].  The float
      operations are a parameter ([FloatOps]); no law about them is assumed,
      so every theorem holds for any float arithmetic.  They are total here:
      the range errors Python raises on float overflow are not represented.
    - A network is mutated in place by [process] and [train]; the embedding
      threads it as the state of a state-and-exception monad, so the state
      reached when an exception escapes is part of the result.  Distinct
      neurons are distinct objects (no neuron or weight list is shared).
    - A file holds a JSON document or a text that does not parse; the
      standard [json] module is not re-implemented, a document stands for
      the text that denotes it.
    - [layer.py] and [neuron.py] are not part of the sources at hand; the
      pieces of them the network calls are modelled from the specification
      and marked as such. *)

From Stdlib Require Import ZArith QArith Qabs Lia.
From stdpp Require Import base option list gmap strings.

Open Scope Z_scope.
Open Scope string_scope.
Open Scope list_scope.
Open Scope nat_scope.

(** ** Numbers *)

(** The float operations the source uses ([math.exp], [math.tanh], the
    arithmetic operators, comparisons and the literals [0.5], [1.0] and
    [10 ** -4]). *)
Class FloatOps (flt : Type) := {
  f_of_Z : Z → flt;                 (* int -> float conversion *)
  f_half : flt;                     (* 0.5 *)
  f_one : flt;                      (* 1.0 *)
  f_eps : flt;                      (* 10 ** -4 *)
  f_add : flt → flt → flt;
  f_sub : flt → flt → flt;
  f_mul : flt → flt → flt;
  f_div : flt → flt → flt;
  f_neg : flt → flt;
  f_abs : flt → flt;
  f_pow2 : flt → flt;               (* x ** 2 *)
  f_exp : flt → flt;                (* math.exp *)
  f_tanh : flt → flt;               (* math.tanh *)
  f_ltb : flt → flt → bool;
  f_leb : flt → flt → bool;
  f_eqb : flt → flt → bool
}.

Section Embedding.
Context {flt : Type} {F : FloatOps flt}.

Inductive number := Int (z : Z) | Float (x : flt).

Definition to_float (a : number) : flt :=
  match a with Int z => f_of_Z z | Float x => x end.

(** A binary operator: exact on two ints, float as soon as one side is. *)
Definition arith (iop : Z → Z → Z) (fop : flt → flt → flt) (a b : number) : number :=
  match a, b with
  | Int x, Int y => Int (iop x y)
  | _, _ => Float (fop (to_float a) (to_float b))
  end.

Definition add := arith Z.add f_add.
Definition sub := arith Z.sub f_sub.
Definition mul := arith Z.mul f_mul.

(** [1.0 / b] and friends: true division always yields a float. *)
Definition div (a b : number) : number := Float (f_div (to_float a) (to_float b)).

Definition neg (a : number) : number :=
  match a with Int z => Int (- z) | Float x => Float (f_neg x) end.

(** [a ** 2] *)
Definition square (a : number) : number :=
  match a with Int z => Int (z * z) | Float x => Float (f_pow2 x) end.

(** [a >= 0] *)
Definition ge0 (a : number) : bool :=
  match a with Int z => (0 <=? z)%Z | Float x => f_leb (f_of_Z 0) x end.

(** [abs(a) < 10 ** -4]; an int is compared exactly, so only 0 passes. *)
Definition abs_lt_eps (a : number) : bool :=
  match a with Int z => (z =? 0)%Z | Float x => f_ltb (f_abs x) f_eps end.

(** The built-in [sum]: a left fold that starts from the int 0. *)
Definition py_sum (xs : list number) : number := fold_left add xs (Int 0).

(** ** Exceptions and results *)

Inductive exn :=
  | IndexError
  | TypeError
  | UnboundLocalError
  | DimensionMismatch
  | KeyError
  | InvalidModelFile (path : string).

Inductive res (A : Type) := Ok (a : A) | Raise (e : exn).
Global Arguments Ok {A} a.
Global Arguments Raise {A} e.

Definition res_bind {A B} (r : res A) (k : A → res B) : res B :=
  match r with Ok a => k a | Raise e => Raise e end.

(** [xs[i]] for a non-negative index. *)
Definition index {A} (xs : list A) (i : nat) : res A :=
  match xs !! i with Some x => Ok x | None => Raise IndexError end.

(** Using an attribute that holds [None] where a value is needed. *)
Definition need {A} (o : option A) : res A :=
  match o with Some x => Ok x | None => Raise TypeError end.

Fixpoint res_map {A B} (f : A → res B) (xs : list A) : res (list B) :=
  match xs with
  | [] => Ok []
  | x :: rest =>
      res_bind (f x) (λ y, res_bind (res_map f rest) (λ ys, Ok (y :: ys)))
  end.

(** ** The activation registry *)

(** What a neuron's [activation] or [derivative] attribute can hold: one of
    the eight class-level lambdas, [None], or some other function.  The
    source compares these by identity, which is the pattern matching here;
    [Lambda] never compares equal to a registry function. *)
Inductive callable :=
  | ACTIVATION_LINEAR
  | ACTIVATION_TANH
  | ACTIVATION_SIGMOID
  | ACTIVATION_STEP
  | DERIVATIVE_LINEAR
  | DERIVATIVE_TANH
  | DERIVATIVE_SIGMOID
  | DERIVATIVE_STEP
  | PyNone
  | Lambda (f : number → number).

Definition LINEAR : Z := 0.
Definition TANH : Z := 1.
Definition SIGMOID : Z := 2.
Definition STEP : Z := 3.

Definition call (f : callable) (x : number) : res number :=
  match f with
  | ACTIVATION_LINEAR => Ok x
  | ACTIVATION_TANH => Ok (Float (f_tanh (to_float x)))
  | ACTIVATION_SIGMOID =>
      Ok (div (Float f_one) (add (Float f_one) (Float (f_exp (to_float (neg x))))))
  | ACTIVATION_STEP => Ok (if ge0 x then Int 1 else Int 0)
  | DERIVATIVE_LINEAR => Ok (Int 1)
  | DERIVATIVE_TANH => Ok (sub (Float f_one) (square x))
  | DERIVATIVE_SIGMOID => Ok (mul x (sub (Float f_one) x))
  | DERIVATIVE_STEP => Ok (if abs_lt_eps x then Int 0 else Int 1)
  | PyNone => Raise TypeError
  | Lambda f => Ok (f x)
  end.

(** The four functions [add_layer] documents as accepted. *)
Definition registry_activation (f : callable) : bool :=
  match f with
  | ACTIVATION_LINEAR | ACTIVATION_TANH | ACTIVATION_SIGMOID | ACTIVATION_STEP => true
  | _ => false
  end.

(** The derivative the source pairs with an activation: the [if]/[elif]
    chain of [add_layer], which starts from [None] and has no [else]. *)
Definition paired_derivative (activation : callable) : callable :=
  match activation with
  | ACTIVATION_LINEAR => DERIVATIVE_LINEAR
  | ACTIVATION_SIGMOID => DERIVATIVE_SIGMOID
  | ACTIVATION_TANH => DERIVATIVE_TANH
  | ACTIVATION_STEP => DERIVATIVE_STEP
  | _ => PyNone
  end.

(** ** Neurons, layers, networks *)

Record Neuron := mkNeuron {
  weights : list number;
  bias : number;
  activation : callable;
  derivative : callable;
  last_input : option (list number);
  last_output : option number;
  error : option number;
  delta : option number
}.

Record Layer := mkLayer { neurons : list Neuron }.

Record Network := mkNetwork { layers : list Layer }.

Definition set_weights (ws : list number) (n : Neuron) : Neuron :=
  mkNeuron ws (bias n) (activation n) (derivative n)
           (last_input n) (last_output n) (error n) (delta n).

Definition set_bias (b : number) (n : Neuron) : Neuron :=
  mkNeuron (weights n) b (activation n) (derivative n)
           (last_input n) (last_output n) (error n) (delta n).

Definition set_error (e : number) (n : Neuron) : Neuron :=
  mkNeuron (weights n) (bias n) (activation n) (derivative n)
           (last_input n) (last_output n) (Some e) (delta n).

Definition set_delta (d : number) (n : Neuron) : Neuron :=
  mkNeuron (weights n) (bias n) (activation n) (derivative n)
           (last_input n) (last_output n) (error n) (Some d).

Definition set_last (input : list number) (output : number) (n : Neuron) : Neuron :=
  mkNeuron (weights n) (bias n) (activation n) (derivative n)
           (Some input) (Some output) (error n) (delta n).

(** Modelled from the spec: the constructor [Neuron(num_inputs, activation,
    derivative)] of neuron.py.  It keeps the activation pair, leaves the
    transient fields unpopulated, and gets its initial weights and bias from
    an initialisation policy the spec leaves to the caller ([initial]). *)
Definition Neuron_new (initial : nat → list number * number)
    (num_inputs : nat) (activation derivative : callable) : Neuron :=
  mkNeuron (fst (initial num_inputs)) (snd (initial num_inputs))
           activation derivative None None None None.

(** Modelled from the spec: the constructor [Layer(num_neurons, num_inputs,
    activation, derivative)] of layer.py, [num_neurons] neurons of the same
    input width; [initial i] is the initialisation of the i-th neuron. *)
Definition Layer_new (initial : nat → nat → list number * number)
    (num_neurons num_inputs : nat) (activation derivative : callable) : Layer :=
  mkLayer (map (λ i, Neuron_new (initial i) num_inputs activation derivative)
               (seq 0 num_neurons)).

(** Modelled from the spec: [Neuron.derive(x)] of neuron.py applies the
    neuron's derivative function. *)
Definition Neuron_derive (n : Neuron) (x : number) : res number :=
  call (derivative n) x.

(** [sum_i(weights[i] * input[i])], accumulated from the left. *)
Definition weighted_sum (ws input : list number) : number :=
  py_sum (zip_with mul ws input).

(** Modelled from the spec: [Neuron.process(input)] of neuron.py.  It
    requires [len(input) == len(weights)], computes the weighted sum plus the
    bias, applies the activation, records the input and the result, and
    returns the result.  The neuron after the call is the second component. *)
Definition Neuron_process (n : Neuron) (input : list number) : res number * Neuron :=
  if decide (length input = length (weights n)) then
    match call (activation n) (add (weighted_sum (weights n) input) (bias n)) with
    | Ok y => (Ok y, set_last input y n)
    | Raise e => (Raise e, n)
    end
  else (Raise DimensionMismatch, n).

Fixpoint process_neurons (ns : list Neuron) (input : list number)
    : res (list number) * list Neuron :=
  match ns with
  | [] => (Ok [], [])
  | n :: rest =>
      match Neuron_process n input with
      | (Ok y, n') =>
          match process_neurons rest input with
          | (Ok ys, rest') => (Ok (y :: ys), n' :: rest')
          | (Raise e, rest') => (Raise e, n' :: rest')
          end
      | (Raise e, n') => (Raise e, n' :: rest)
      end
  end.

(** Modelled from the spec: [Layer.process(input)] of layer.py feeds the
    same input to every neuron in order and collects the outputs. *)
Definition Layer_process (layer : Layer) (input : list number) : res (list number) * Layer :=
  let (r, ns) := process_neurons (neurons layer) input in (r, mkLayer ns).

(** ** The network as mutable state *)

(** A method of [Network]: it runs on the network [self], may raise, and
    leaves the network as it was mutated up to that point. *)
Definition M (A : Type) : Type := Network → res A * Network.

Definition ret {A} (a : A) : M A := λ self, (Ok a, self).

Definition raise {A} (e : exn) : M A := λ self, (Raise e, self).

Definition bind {A B} (m : M A) (k : A → M B) : M B :=
  λ self, match m self with
          | (Ok a, self') => k a self'
          | (Raise e, self') => (Raise e, self')
          end.

Definition lift {A} (r : res A) : M A :=
  match r with Ok a => ret a | Raise e => raise e end.

Global Instance M_ret : MRet M := @ret.
Global Instance M_bind : MBind M := λ A B k m, bind m k.

(** [for x in xs: body(x)] *)
Fixpoint for_each {A} (xs : list A) (body : A → M unit) : M unit :=
  match xs with
  | [] => ret tt
  | x :: rest => body x;; for_each rest body
  end.

(** A [for] loop that carries local variables [acc] from one iteration to
    the next. *)
Fixpoint for_fold {A B} (xs : list A) (acc : B) (body : B → A → M B) : M B :=
  match xs with
  | [] => ret acc
  | x :: rest => acc' ← body acc x; for_fold rest acc' body
  end.

(** [self.layers[k]] *)
Definition lookup_layer (k : nat) : M Layer :=
  λ self, (index (layers self) k, self).

(** [self.layers[k].neurons[l]] *)
Definition lookup_neuron (k l : nat) : M Neuron :=
  layer ← lookup_layer k; lift (index (neurons layer) l).

Definition alter_neuron (f : Neuron → Neuron) (k l : nat) (self : Network) : Network :=
  mkNetwork (alter (λ layer, mkLayer (alter f l (neurons layer))) k (layers self)).

(** An attribute assignment on the neuron object [self.layers[k].neurons[l]]. *)
Definition modify_neuron (k l : nat) (f : Neuron → Neuron) : M unit :=
  λ self, (Ok tt, alter_neuron f k l self).

(** [self.layers[-1]], as the position of the last layer. *)
Definition last_layer : M nat :=
  λ self, match length (layers self) with
          | 0 => (Raise IndexError, self)
          | S k => (Ok k, self)
          end.

(** [len(self.layers[k].neurons)] *)
Definition len_neurons (k : nat) : M nat :=
  layer ← lookup_layer k; ret (length (neurons layer)).

(** ** [Network.process] *)

(** The loop [for layer in self.layers] with its two local variables; the
    layers come back as the calls to [layer.process] left them. *)
Fixpoint process_layers (ls : list Layer) (inputs : list number)
    (outputs : option (list number)) : res (option (list number)) * list Layer :=
  match ls with
  | [] => (Ok outputs, [])
  | layer :: rest =>
      match Layer_process layer inputs with
      | (Ok outs, layer') =>
          let (r, rest') := process_layers rest outs (Some outs) in
          (r, layer' :: rest')
      | (Raise e, layer') => (Raise e, layer' :: rest)
      end
  end.

(** [outputs] starts as [None] and is returned as such by an empty network. *)
Definition process (_inputs : list number) : M (option (list number)) :=
  λ self, let (r, ls) := process_layers (layers self) _inputs None in
          (r, mkNetwork ls).

(** ** [Network.add_layer] *)

(** [self.layers.append(layer)] *)
Definition append_layer (layer : Layer) : M unit :=
  λ self, (Ok tt, mkNetwork (layers self ++ [layer])).

Section AddLayer.
Variable initial : nat → nat → list number * number.

Definition add_layer (num_neurons : nat) (num_inputs : option nat)
    (activation : callable) : M unit :=
  num_inputs ←
    match num_inputs with
    | None => k ← last_layer; len_neurons k
    | Some n => ret n
    end;
  let activation :=
    match activation with PyNone => ACTIVATION_SIGMOID | f => f end in
  let derivative := paired_derivative activation in
  append_layer (Layer_new initial num_neurons num_inputs activation derivative).

End AddLayer.

(** ** [Network.train] *)

(** The body of the loop over the output layer.  The local variables that
    survive an iteration are [error] and the loop variable [neuron], here
    the position of that neuron in the output layer. *)
Definition output_neuron (output_layer : nat) (targets : list number)
    (outputs : option (list number)) (acc : number * option nat) (k : nat)
    : M (number * option nat) :=
  _ ← lookup_neuron output_layer k;
  t ← lift (index targets k);
  outs ← lift (need outputs);
  o ← lift (index outs k);
  modify_neuron output_layer k (set_error (sub t o));;
  neuron ← lookup_neuron output_layer k;
  e ← lift (need (error neuron));
  let total := add (fst acc) (mul (Float f_half) (square e)) in
  y ← lift (need (last_output neuron));
  d ← lift (Neuron_derive neuron y);
  modify_neuron output_layer k (set_delta (mul d e));;
  ret (total, Some k).

(** [neuron_l.error = sum([neuron.weights[l] * neuron.delta
                           for neuron in layer_next.neurons])] *)
Definition hidden_error (k l : nat) : M unit :=
  layer_next ← lookup_layer (S k);
  terms ← lift (res_map (λ neuron,
                           res_bind (index (weights neuron) l) (λ w,
                           res_bind (need (delta neuron)) (λ d,
                           Ok (mul w d))))
                        (neurons layer_next));
  modify_neuron k l (set_error (py_sum terms)).

(** [neuron_l.delta = neuron.derive(neuron.last_output) * neuron_l.error].
    The comprehension above has a scope of its own, so [neuron] is still the
    variable of the loop over the output layer: the last neuron of the
    output layer, or unbound if that loop never ran. *)
Definition hidden_delta (neuron : option nat) (output_layer k l : nat) : M unit :=
  i ← lift (match neuron with Some i => Ok i | None => Raise UnboundLocalError end);
  neuron ← lookup_neuron output_layer i;
  y ← lift (need (last_output neuron));
  d ← lift (Neuron_derive neuron y);
  neuron_l ← lookup_neuron k l;
  e ← lift (need (error neuron_l));
  modify_neuron k l (set_delta (mul d e)).

(** [neuron_m.weights[n] += learn_rate * neuron_m.last_input[n] * neuron_m.error] *)
Definition update_weight (learn_rate : number) (k1 m n : nat) : M unit :=
  neuron_m ← lookup_neuron k1 m;
  w ← lift (index (weights neuron_m) n);
  input ← lift (need (last_input neuron_m));
  x ← lift (index input n);
  e ← lift (need (error neuron_m));
  modify_neuron k1 m
    (λ neuron_m, set_weights (<[n := add w (mul (mul learn_rate x) e)]> (weights neuron_m)) neuron_m).

(** The body of [for m in range(0, len(layer_next.neurons), 1)]: every
    weight of [neuron_m], then
    [neuron_m.bias += learn_rate * neuron_m.delta]. *)
Definition update_neuron (learn_rate : number) (k1 m : nat) : M unit :=
  neuron_m ← lookup_neuron k1 m;
  for_each (seq 0 (length (weights neuron_m))) (update_weight learn_rate k1 m);;
  neuron_m ← lookup_neuron k1 m;
  d ← lift (need (delta neuron_m));
  modify_neuron k1 m (set_bias (add (bias neuron_m) (mul learn_rate d))).

Definition update_next_layer (learn_rate : number) (k1 : nat) : M unit :=
  count ← len_neurons k1;
  for_each (seq 0 count) (update_neuron learn_rate k1).

(** The body of [for l in range(0, len(layer.neurons), 1)]. *)
Definition backward_neuron (learn_rate : number) (neuron : option nat)
    (output_layer k l : nat) : M unit :=
  _ ← lookup_neuron k l;
  hidden_error k l;;
  hidden_delta neuron output_layer k l;;
  update_next_layer learn_rate (S k).

(** The body of [for k in range(len(self.layers) - 2, 0 - 1, -1)]. *)
Definition backward_layer (learn_rate : number) (neuron : option nat)
    (output_layer k : nat) : M unit :=
  _ ← lookup_layer k;
  _ ← lookup_layer (S k);
  count ← len_neurons k;
  for_each (seq 0 count) (backward_neuron learn_rate neuron output_layer k).

Definition train (inputs targets : list number) (learn_rate : number) : M number :=
  output_layer ← last_layer;
  outputs ← process inputs;
  count ← len_neurons output_layer;
  acc ← for_fold (seq 0 count) (Int 0, None) (output_neuron output_layer targets outputs);
  for_each (rev (seq 0 output_layer)) (backward_layer learn_rate (snd acc) output_layer);;
  ret (fst acc).

(** ** Model files *)

(** A parsed JSON document, as [json.loads] returns it and [json.dumps]
    takes it: [None], booleans, ints, floats, strings, lists, and
    dictionaries in insertion order. *)
#[local] Unset Elimination Schemes.
Inductive json :=
  | JNull
  | JBool (b : bool)
  | JInt (z : Z)
  | JFloat (x : flt)
  | JString (s : string)
  | JList (items : list json)
  | JObject (members : list (string * json)).
#[local] Set Elimination Schemes.

(** What a file holds: a text that parses to a document, or a text that
    [json.loads] rejects.  [json.dumps] and [json.loads] are the standard
    library's; the text they exchange is represented by the document it
    denotes (so is the text [load] rebuilds by joining the lines it read,
    which only adds blank lines between tokens). *)
Inductive contents :=
  | Document (value : json)
  | Malformed (text : string).

(** The file system: the files that exist, by path.  Opening a destination
    for writing is taken to succeed. *)
Abbreviation files := (gmap string contents).

Fixpoint assoc (key : string) (members : list (string * json)) : option json :=
  match members with
  | [] => None
  | (k, v) :: rest => if decide (k = key) then Some v else assoc key rest
  end.

(** [value[key]] for a string key. *)
Definition getitem (value : json) (key : string) : res json :=
  match value with
  | JObject members =>
      match assoc key members with Some v => Ok v | None => Raise KeyError end
  | _ => Raise TypeError
  end.

(** The items a [for] loop over [value] goes through: the elements of a
    list, the keys of a dictionary, the characters of a string. *)
Definition iterate (value : json) : res (list json) :=
  match value with
  | JList items => Ok items
  | JObject members => Ok (map (λ kv, JString (fst kv)) members)
  | JString s => Ok (map (λ c, JString (String c EmptyString)) (String.list_ascii_of_string s))
  | _ => Raise TypeError
  end.

(** [value == n] for an int [n]. *)
Definition eq_int (value : json) (n : Z) : bool :=
  match value with
  | JInt z => (z =? n)%Z
  | JFloat x => f_eqb x (f_of_Z n)
  | JBool b => ((if b then 1 else 0) =? n)%Z
  | _ => false
  end.

Definition to_json (a : number) : json :=
  match a with Int z => JInt z | Float x => JFloat x end.

(** *** [Network.save] *)

(** "Convert" the functions into their number counterparts. *)
Definition enum_of (activation : callable) : json :=
  match activation with
  | ACTIVATION_LINEAR => JInt LINEAR
  | ACTIVATION_SIGMOID => JInt SIGMOID
  | ACTIVATION_TANH => JInt TANH
  | ACTIVATION_STEP => JInt STEP
  | _ => JNull
  end.

Definition neuron_data (neuron : Neuron) : json :=
  JObject [("weights", JList (map to_json (weights neuron)));
           ("bias", to_json (bias neuron));
           ("activation", enum_of (activation neuron))].

Definition layer_data (layer : Layer) : json :=
  JObject [("neurons", JList (map neuron_data (neurons layer)))].

Definition network_data (network : Network) : json :=
  JObject [("layers", JList (map layer_data (layers network)))].

Definition save (path : string) (network : Network) (fs : files) : files :=
  <[path := Document (network_data network)]> fs.

(** *** [Network.load] *)

(** A neuron as [load] builds it.  Python attributes are untyped: the
    weights and the bias are whatever the document holds under these keys,
    taken verbatim. *)
Record LoadedNeuron := mkLoaded {
  loaded_weights : json;
  loaded_bias : json;
  loaded_activation : callable;
  loaded_derivative : callable
}.

(** Choose the proper activation function and corresponding derivative:
    both start as [None] and stay so when no branch of the chain matches. *)
Definition resolve_activation (activation : json) : callable * callable :=
  if eq_int activation LINEAR then (ACTIVATION_LINEAR, DERIVATIVE_LINEAR)
  else if eq_int activation SIGMOID then (ACTIVATION_SIGMOID, DERIVATIVE_SIGMOID)
  else if eq_int activation TANH then (ACTIVATION_TANH, DERIVATIVE_TANH)
  else if eq_int activation STEP then (ACTIVATION_STEP, DERIVATIVE_STEP)
  else (PyNone, PyNone).

Definition load_neuron (neuron : json) : res LoadedNeuron :=
  res_bind (getitem neuron "weights") (λ weights,
  res_bind (getitem neuron "bias") (λ bias,
  res_bind (getitem neuron "activation") (λ activation,
  let (activation_func, derivative_func) := resolve_activation activation in
  Ok (mkLoaded weights bias activation_func derivative_func)))).

Definition load_layer (layer : json) : res (list LoadedNeuron) :=
  res_bind (getitem layer "neurons") (λ neurons,
  res_bind (iterate neurons) (res_map load_neuron)).

Definition load_document (network_json : json) : res (list (list LoadedNeuron)) :=
  res_bind (getitem network_json "layers") (λ layers,
  res_bind (iterate layers) (res_map load_layer)).

(** The [try] block with its bare [except]: whatever goes wrong, the
    exception raised is the one that names the path. *)
Definition load (path : string) (fs : files) : res (list (list LoadedNeuron)) :=
  match fs !! path with
  | Some (Document network_json) =>
      match load_document network_json with
      | Ok network => Ok network
      | Raise _ => Raise (InvalidModelFile path)
      end
  | Some (Malformed _) => Raise (InvalidModelFile path)
  | None => Raise (InvalidModelFile path)
  end.

(** *** Loaded networks with numeric weights *)

(** [process] and [train] are embedded for neurons whose weights are a list
    of numbers and whose bias is a number.  A loaded network is such a
    network when every neuron passes this cast; its transient fields are
    those of a freshly constructed neuron. *)
Definition as_number (value : json) : option number :=
  match value with
  | JInt z => Some (Int z)
  | JFloat x => Some (Float x)
  | _ => None
  end.

Definition as_numbers (value : json) : option (list number) :=
  match value with
  | JList items => mapM as_number items
  | _ => None
  end.

Definition as_neuron (n : LoadedNeuron) : option Neuron :=
  ws ← as_numbers (loaded_weights n);
  b ← as_number (loaded_bias n);
  Some (mkNeuron ws b (loaded_activation n) (loaded_derivative n) None None None None).

Definition as_network (network : list (list LoadedNeuron)) : option Network :=
  mkNetwork <$> mapM (λ layer, mkLayer <$> mapM as_neuron layer) network.

(** ** Vocabulary of the statements *)

(** What [train] must not change in a neuron: its input width and its
    activation pair. *)
Definition signature (n : Neuron) : nat * callable * callable :=
  (length (weights n), activation n, derivative n).

(** The topology of a network: its layers, the neurons of each layer, and
    the signature of each neuron. *)
Definition topology (network : Network) : list (list (nat * callable * callable)) :=
  map (λ layer, map signature (neurons layer)) (layers network).










(** A view of a network: what a function [view] sees of each neuron, layer
    by layer.  The topology is the view through [signature]. *)
Definition view_of {T} (view : Neuron → T) (self : Network) : list (list T) :=
  map (λ layer, map view (neurons layer)) (layers self).

Definition same_view {T} (view : Neuron → T) : relation Network :=
  λ self self', view_of view self' = view_of view self.

(** [stable R m]: whatever [m] returns or raises, the network it leaves is
    related by [R] to the one it ran on. *)
Definition stable {A} (R : relation Network) (m : M A) : Prop :=
  ∀ self, R self (m self).2.

(** What the forward pass reads of a neuron. *)
Definition parameters (n : Neuron) : list number * number * callable :=
  (weights n, bias n, activation n).

(** The neuron [load] builds from the entry [save] wrote for [n]. *)
Definition saved_neuron (n : Neuron) : LoadedNeuron :=
  mkLoaded (JList (map to_json (weights n))) (to_json (bias n))
           (resolve_activation (enum_of (activation n))).1
           (resolve_activation (enum_of (activation n))).2.



(** Every neuron applies one of the four registry activations. *)
Definition registry_network (network : Network) : Prop :=
  Forall (λ layer, Forall (λ n, registry_activation (activation n) = true) (neurons layer))
         (layers network).

(** Reading the document [save] wrote: the entry [key] of neuron [l] of
    layer [k]. *)
Definition saved_field (doc : json) (k l : nat) (key : string) : res json :=
  res_bind (getitem doc "layers") (λ layers,
  res_bind (iterate layers) (λ layers,
  res_bind (index layers k) (λ layer,
  res_bind (getitem layer "neurons") (λ neurons,
  res_bind (iterate neurons) (λ neurons,
  res_bind (index neurons l) (λ neuron,
  getitem neuron key)))))).


(** ** Vocabulary of the further properties *)

(** Every neuron applies a registry activation and carries the derivative
    the source pairs with it, as [add_layer] and [load] build them. *)
Definition paired_network (network : Network) : Prop :=
  Forall (λ layer,
            Forall (λ n, registry_activation (activation n) = true
                         ∧ derivative n = paired_derivative (activation n))
                   (neurons layer))
         (layers network).

(** The neuron [load] rebuilds from the entry [save] wrote for [n]: the
    weights and the bias as they were, the activation pair resolved from
    the tag, the transient fields of a new neuron. *)
Definition reloaded_neuron (n : Neuron) : Neuron :=
  mkNeuron (weights n) (bias n)
           (resolve_activation (enum_of (activation n))).1
           (resolve_activation (enum_of (activation n))).2
           None None None None.

Definition reloaded (network : Network) : Network :=
  mkNetwork (map (λ layer, mkLayer (map reloaded_neuron (neurons layer))) (layers network)).

(** A neuron with its transient fields cleared. *)
Definition fresh_neuron (n : Neuron) : Neuron :=
  mkNeuron (weights n) (bias n) (activation n) (derivative n) None None None None.

Definition fresh (network : Network) : Network :=
  mkNetwork (map (λ layer, mkLayer (map fresh_neuron (neurons layer))) (layers network)).

(** A document with the layout [save] writes, for arbitrary values under
    the three keys of a neuron: [(weights, bias, activation)] per neuron. *)
Definition entry_data (entry : json * json * json) : json :=
  JObject [("weights", entry.1.1); ("bias", entry.1.2); ("activation", entry.2)].

Definition document_of (entries : list (list (json * json * json))) : json :=
  JObject [("layers",
            JList (map (λ layer, JObject [("neurons", JList (map entry_data layer))])
                       entries))].

(** The neuron [load] builds from such an entry. *)
Definition loaded_entry (entry : json * json * json) : LoadedNeuron :=
  mkLoaded entry.1.1 entry.1.2
           (resolve_activation entry.2).1 (resolve_activation entry.2).2.

(** The activation [add_layer] uses: the sigmoid when none is given. *)
Definition default_activation (activation : callable) : callable :=
  match activation with PyNone => ACTIVATION_SIGMOID | f => f end.

(** [kept g]: the network a method leaves has the [g] it started with. *)
Definition kept {T} (g : Network → T) : relation Network :=
  λ self self', g self' = g self.

(** What the forward pass reads of the first layer: the weights, the bias
    and the activation of each of its neurons. *)
Definition first_layer_parameters (network : Network)
    : option (list (list number * number * callable)) :=
  head (view_of parameters network).




End Embedding.

Global Arguments number : clear implicits.
Global Arguments callable : clear implicits.
Global Arguments Neuron : clear implicits.
Global Arguments Layer : clear implicits.
Global Arguments Network : clear implicits.
Global Arguments json : clear implicits.
Global Arguments contents : clear implicits.
Global Arguments LoadedNeuron : clear implicits.
Global Arguments M : clear implicits.

(** ** An arithmetic to run the embedding on

    Exact rational arithmetic: on the small dyadic values of the examples
    below it agrees with binary64.  The exponential and the hyperbolic
    tangent have no rational value in general; the examples only use LINEAR
    and STEP neurons, which never call them. *)
Global Instance rational : FloatOps Q := {
  f_of_Z := inject_Z;
  f_half := 1 # 2;
  f_one := 1;
  f_eps := 1 # 10000;
  f_add := Qplus;
  f_sub := Qminus;
  f_mul := Qmult;
  f_div := Qdiv;
  f_neg := Qopp;
  f_abs := Qabs;
  f_pow2 := λ x, Qmult x x;
  f_exp := λ x, x;
  f_tanh := λ x, x;
  f_ltb := λ x y, negb (Qle_bool y x);
  f_leb := Qle_bool;
  f_eqb := Qeq_bool
}.

(** Example neurons with int weights: everything they compute stays an
    exact Python int. *)
Definition linear_neuron (ws : list Z) (b : Z) : Neuron Q :=
  mkNeuron (map Int ws) (Int b) ACTIVATION_LINEAR DERIVATIVE_LINEAR None None None None.

Definition step_neuron (ws : list Z) (b : Z) : Neuron Q :=
  mkNeuron (map Int ws) (Int b) ACTIVATION_STEP DERIVATIVE_STEP None None None None.

(** A neuron with int weights after a call to [train]: its last input and
    output, its error and its delta are ints as well. *)
Definition trained_neuron (ws : list Z) (b : Z) (activation derivative : callable Q)
    (input : list Z) (output e d : Z) : Neuron Q :=
  mkNeuron (map Int ws) (Int b) activation derivative
           (Some (map Int input)) (Some (Int output)) (Some (Int e)) (Some (Int d)).

(** Two layers of one LINEAR neuron each: x -> 1*x -> 3*(1*x). *)
Definition net_two : Network Q :=
  mkNetwork [mkLayer [linear_neuron [1%Z] 0]; mkLayer [linear_neuron [3%Z] 0]].


(** Three layers of one neuron each, the middle one a STEP neuron that
    outputs 0 on the input 1. *)
Definition net_three : Network Q :=
  mkNetwork [mkLayer [linear_neuron [1%Z] 0];
             mkLayer [step_neuron [(-1)%Z] 0];
             mkLayer [linear_neuron [1%Z] 0]].

(** [net_three] after [train([1], [1], 1)]. *)
Definition net_three_trained : Network Q :=
  mkNetwork
    [mkLayer [trained_neuron [1%Z] 0 ACTIVATION_LINEAR DERIVATIVE_LINEAR [1%Z] 1 (-1) (-1)];
     mkLayer [trained_neuron [0%Z] 1 ACTIVATION_STEP DERIVATIVE_STEP [1%Z] 0 1 1];
     mkLayer [trained_neuron [1%Z] 1 ACTIVATION_LINEAR DERIVATIVE_LINEAR [0%Z] 0 1 1]].



(** A network whose only neuron applies a function of the caller's own;
    [add_layer] pairs no derivative with it. *)
Definition net_custom : Network Q :=
  mkNetwork [mkLayer [mkNeuron [Int 1] (Int 0) (Lambda (λ x, mul x x)) PyNone
                               None None None None]].

(** The document
    [{"layers": [{"neurons": [{"weights": [0.1], "bias": 0, "activation": 99}]}]}]. *)
Definition tag_99 : json Q :=
  JObject [("layers", JList [JObject [("neurons", JList [JObject
    [("weights", JList [JFloat (1 # 10)]); ("bias", JInt 0); ("activation", JInt 99)]])]])].

(** ** Properties *)

(** The document
    [{"layers": [{"neurons": [{"weights": [1], "activation": 0}]}]}], whose
    only neuron has no "bias". *)
Definition doc_no_bias : json Q :=
  JObject [("layers",
            JList [JObject [("neurons",
                             JList [JObject [("weights", JList [JInt 1]);
                                             ("activation", JInt LINEAR)]])]])].

(** An initialisation policy: every weight and every bias 0. *)
Definition zeros (i num_inputs : nat) : list (number Q) * number Q :=
  (replicate num_inputs (Int 0), Int 0).

Section Properties.
Context {flt : Type} {F : FloatOps flt}.
Implicit Types (N self : Network flt) (layer : Layer flt) (n : Neuron flt).
Implicit Types (inputs targets : list (number flt)).

(** *** [process] on a network without layers *)

(** C6 (as amended): on a network with zero layers, [process] raises
    nothing; it returns [None] (no output vector) and leaves the network as
    it was. *)
Theorem process_no_layers inputs :
  process inputs (mkNetwork []) = (Ok None, mkNetwork []).
Proof. reflexivity. Qed.

(** *** [add_layer] without an input width *)

(** C9: with [num_inputs] left unspecified on a network that has no layer
    yet, [add_layer] fails on the lookup of the last layer and appends
    nothing, whatever the neuron count, the activation and the
    initialisation policy. *)
Theorem add_layer_no_width_no_layers initial num_neurons (activation : callable flt) :
  add_layer initial num_neurons None activation (mkNetwork [])
  = (Raise IndexError, mkNetwork []).
Proof. reflexivity. Qed.

(** *** Model files *)

Lemma res_map_fmap_ok {A B C} (f : B → res C) (h : A → B) (g : A → C) (xs : list A) :
  (∀ x, f (h x) = Ok (g x)) → res_map f (map h xs) = Ok (map g xs).
Proof.
  intros Hf. induction xs as [|x xs IH]; [reflexivity|].
  simpl. by rewrite Hf, IH.
Qed.

Lemma index_fmap {A B} (f : A → B) (xs : list A) (i : nat) (x : A) :
  xs !! i = Some x → index (map f xs) i = Ok (f x).
Proof. intros Hx. unfold index. change (map f xs) with (f <$> xs). by rewrite list_lookup_fmap, Hx. Qed.

(** C10: when a neuron's activation is not one of the four registry
    functions, [save] still writes the file, and the entry of that neuron
    holds [null] under "activation". *)
Theorem save_unknown_activation_null path N (fs : gmap string (contents flt)) k l layer n :
  layers N !! k = Some layer →
  neurons layer !! l = Some n →
  registry_activation (activation n) = false →
  ∃ doc, save path N fs !! path = Some (Document doc)
         ∧ saved_field doc k l "activation" = Ok JNull.
Proof.
  intros Hk Hl Hact. exists (network_data N). split.
  - unfold save. apply lookup_insert_eq.
  - unfold saved_field, network_data. simpl.
    rewrite (index_fmap _ _ _ _ Hk). simpl.
    rewrite (index_fmap _ _ _ _ Hl). simpl.
    destruct (activation n); try discriminate Hact; reflexivity.
Qed.

Lemma load_only_raises_InvalidModelFile path (fs : gmap string (contents flt)) e :
  load path fs = Raise e → e = InvalidModelFile path.
Proof.
  unfold load. destruct (fs !! path) as [[doc|text]|]; try congruence.
  destruct (load_document doc); congruence.
Qed.

Lemma resolve_unknown_tag (tag : json flt) :
  eq_int tag LINEAR = false → eq_int tag SIGMOID = false →
  eq_int tag TANH = false → eq_int tag STEP = false →
  resolve_activation tag = (PyNone, PyNone).
Proof. intros H0 H2 H1 H3. unfold resolve_activation. by rewrite H0, H2, H1, H3. Qed.

(** C5 (as amended): [load] fails with the one wrapped error that carries
    the path when the file does not exist, when its text is not a document,
    and when reading the document fails; it never fails with another error,
    and a failure returns no network.  An activation tag outside 0..3 is not
    a failure: the neuron is loaded with no activation and no derivative. *)
Theorem load_failure_is_InvalidModelFile path (fs : gmap string (contents flt)) :
  (fs !! path = None → load path fs = Raise (InvalidModelFile path))
  ∧ (∀ text, fs !! path = Some (Malformed text) →
       load path fs = Raise (InvalidModelFile path))
  ∧ (∀ doc e, fs !! path = Some (Document doc) → load_document doc = Raise e →
       load path fs = Raise (InvalidModelFile path))
  ∧ (∀ e, load path fs = Raise e → e = InvalidModelFile path)
  ∧ (∀ weights bias tag,
       eq_int tag LINEAR = false → eq_int tag SIGMOID = false →
       eq_int tag TANH = false → eq_int tag STEP = false →
       load path
         (<[path := Document
              (JObject [("layers", JList [JObject [("neurons", JList [JObject
                 [("weights", weights); ("bias", bias); ("activation", tag)]])]])])]> fs)
       = Ok [[mkLoaded weights bias PyNone PyNone]]).
Proof.
  split_and!.
  - intros Hp. unfold load. by rewrite Hp.
  - intros text Hp. unfold load. by rewrite Hp.
  - intros doc e Hp Hd. unfold load. by rewrite Hp, Hd.
  - apply load_only_raises_InvalidModelFile.
  - intros weights bias tag H0 H2 H1 H3. unfold load. rewrite lookup_insert_eq.
    unfold load_document, load_layer, load_neuron. simpl.
    by rewrite (resolve_unknown_tag tag H0 H2 H1 H3).
Qed.

(** *** What a method leaves related to the network it started from *)

Lemma bind_ok {A B} (m : M flt A) (k : A → M flt B) self a self' :
  m self = (Ok a, self') → (m ≫= k) self = k a self'.
Proof. intros Hm. unfold mbind, M_bind, bind. by rewrite Hm. Qed.

Section Stable.
Context (R : relation (Network flt)) `{!PreOrder R}.

Lemma stable_ret {A} (a : A) : stable R (ret a).
Proof. intros self. reflexivity. Qed.

Lemma stable_raise {A} e : stable R (raise e : M flt A).
Proof. intros self. reflexivity. Qed.

Lemma stable_lift {A} (r : res A) : stable R (lift r).
Proof. destruct r; [apply stable_ret | apply stable_raise]. Qed.

Lemma stable_bind {A B} (m : M flt A) (k : A → M flt B) :
  stable R m → (∀ a, stable R (k a)) → stable R (m ≫= k).
Proof.
  intros Hm Hk self. unfold mbind, M_bind, bind.
  specialize (Hm self). destruct (m self) as [[a|e] self']; simpl in *; [|done].
  etrans; [exact Hm | apply Hk].
Qed.

Lemma stable_for_each {A} (xs : list A) (body : A → M flt unit) :
  (∀ x, stable R (body x)) → stable R (for_each xs body).
Proof.
  intros Hb. induction xs as [|x xs IH]; simpl; [apply stable_ret|].
  apply stable_bind; auto.
Qed.

Lemma stable_for_fold {A B} (xs : list A) (acc : B) (body : B → A → M flt B) :
  (∀ b x, stable R (body b x)) → stable R (for_fold xs acc body).
Proof.
  intros Hb. revert acc. induction xs as [|x xs IH]; intros acc; simpl; [apply stable_ret|].
  apply stable_bind; auto.
Qed.

Lemma stable_lookup_layer k : stable R (lookup_layer k).
Proof. intros self. reflexivity. Qed.

Lemma stable_lookup_neuron k l : stable R (lookup_neuron k l).
Proof.
  apply stable_bind; [apply stable_lookup_layer | intros; apply stable_lift].
Qed.

Lemma stable_len_neurons k : stable R (len_neurons k).
Proof.
  apply stable_bind; [apply stable_lookup_layer | intros; apply stable_ret].
Qed.

Lemma stable_last_layer : stable R last_layer.
Proof. intros self. unfold last_layer. destruct (length (layers self)); reflexivity. Qed.

Lemma stable_modify_neuron k l f :
  (∀ self, R self (alter_neuron f k l self)) → stable R (modify_neuron k l f).
Proof. intros Hf self. apply Hf. Qed.

(** [train] in terms of its elementary writes: a relation that the forward
    pass and the four kinds of attribute assignment respect is respected by
    every part of [train]. *)
Section StableTrain.
Hypothesis R_process : ∀ inputs, stable R (process inputs).
Hypothesis R_error : ∀ k l e self, R self (alter_neuron (set_error e) k l self).
Hypothesis R_delta : ∀ k l d self, R self (alter_neuron (set_delta d) k l self).
Hypothesis R_weight : ∀ k l i w self,
  R self (alter_neuron (λ n, set_weights (<[i:=w]> (weights n)) n) k l self).
Hypothesis R_bias : ∀ k l b self, R self (alter_neuron (set_bias b) k l self).

Local Ltac stable_steps :=
  repeat first
    [ apply stable_ret | apply stable_lift | apply stable_lookup_neuron
    | apply stable_lookup_layer | apply stable_len_neurons | apply stable_last_layer
    | apply R_process
    | apply stable_modify_neuron; solve [auto]
    | apply stable_for_each; intros ?
    | apply stable_for_fold; intros ? ?
    | apply stable_bind; [|intros ?] ].

Lemma stable_update_next_layer lr k1 : stable R (update_next_layer lr k1).
Proof. unfold update_next_layer. stable_steps. Qed.


Lemma stable_train inputs targets lr : stable R (train inputs targets lr).
Proof. unfold train. stable_steps. Qed.


End StableTrain.

End Stable.

(** *** Views of a network that a method keeps *)

Global Instance same_view_preorder {T} (view : Neuron flt → T) : PreOrder (same_view view).
Proof.
  split; [intros self; reflexivity|].
  intros s1 s2 s3 H12 H23. unfold same_view in *. congruence.
Qed.

Lemma view_alter_neuron {T} (view : Neuron flt → T) f k l self :
  (∀ n, view (f n) = view n) → same_view view self (alter_neuron f k l self).
Proof.
  intros Hf. unfold same_view, view_of, alter_neuron. simpl.
  change (map ?g ?x) with (g <$> x).
  rewrite (list_fmap_alter _ _ id).
  - by rewrite list_alter_id.
  - apply Forall_true. intros layer. simpl.
    change (map ?g ?x) with (g <$> x).
    rewrite (list_fmap_alter _ f id); [by rewrite list_alter_id|].
    apply Forall_true. intros n. apply Hf.
Qed.

Section ProcessView.
Context {T : Type} (view : Neuron flt → T).
Hypothesis view_set_last : ∀ input y n, view (set_last input y n) = view n.

Lemma Neuron_process_view n input : view (Neuron_process n input).2 = view n.
Proof.
  unfold Neuron_process. case_decide; [|done].
  destruct (call _ _); simpl; [apply view_set_last | done].
Qed.

Lemma process_neurons_view ns input :
  map view (process_neurons ns input).2 = map view ns.
Proof.
  induction ns as [|n ns IH]; simpl; [done|].
  pose proof (Neuron_process_view n input) as Hn.
  destruct (Neuron_process n input) as [[y|e] n']; simpl in *.
  - destruct (process_neurons ns input) as [[ys|e] ns']; simpl in *; congruence.
  - congruence.
Qed.

Lemma Layer_process_view layer input :
  map view (neurons (Layer_process layer input).2) = map view (neurons layer).
Proof.
  unfold Layer_process. pose proof (process_neurons_view (neurons layer) input) as H.
  by destruct (process_neurons (neurons layer) input).
Qed.

Lemma process_layers_view ls inputs outputs :
  map (λ layer, map view (neurons layer)) (process_layers ls inputs outputs).2
  = map (λ layer, map view (neurons layer)) ls.
Proof.
  revert inputs outputs. induction ls as [|layer ls IH]; intros inputs outputs; simpl; [done|].
  pose proof (Layer_process_view layer inputs) as Hl.
  destruct (Layer_process layer inputs) as [[outs|e] layer']; simpl in *.
  - specialize (IH outs (Some outs)).
    destruct (process_layers ls outs (Some outs)) as [r ls']; simpl in *. congruence.
  - congruence.
Qed.

Lemma stable_process_view inputs : stable (same_view view) (process inputs).
Proof.
  intros self. unfold same_view, view_of, process.
  pose proof (process_layers_view (layers self) inputs None) as H.
  by destruct (process_layers (layers self) inputs None).
Qed.

End ProcessView.

(** *** [train] keeps the topology *)

Lemma train_topology inputs targets learn_rate N :
  topology (train inputs targets learn_rate N).2 = topology N.
Proof.
  apply (stable_train (same_view signature)).
  - intros i. by apply stable_process_view.
  - intros. by apply view_alter_neuron.
  - intros. by apply view_alter_neuron.
  - intros. apply view_alter_neuron. intros n. unfold signature. simpl.
    by rewrite length_insert.
  - intros. by apply view_alter_neuron.
Qed.

(** C8: whether [train] returns or raises, the network it leaves has the
    layers, the neurons per layer and the weight-vector lengths it had
    before the call (and every neuron its activation and derivative). *)
Theorem train_preserves_topology inputs targets learn_rate N :
  topology (train inputs targets learn_rate N).2 = topology N.
Proof. apply train_topology. Qed.

(** *** Saving and loading a network *)

Lemma load_neuron_data n : load_neuron (neuron_data n) = Ok (saved_neuron n).
Proof.
  unfold load_neuron, neuron_data, saved_neuron. simpl.
  by destruct (resolve_activation (enum_of (activation n))).
Qed.

Lemma load_layer_data layer :
  load_layer (layer_data layer) = Ok (map saved_neuron (neurons layer)).
Proof.
  unfold load_layer, layer_data. simpl.
  apply res_map_fmap_ok, load_neuron_data.
Qed.

Lemma load_save path N (fs : gmap string (contents flt)) :
  load path (save path N fs)
  = Ok (map (λ layer, map saved_neuron (neurons layer)) (layers N)).
Proof.
  unfold load, save. rewrite lookup_insert_eq.
  unfold load_document, network_data. simpl.
  by rewrite (res_map_fmap_ok _ _ (λ layer, map saved_neuron (neurons layer)) _ load_layer_data).
Qed.

Lemma as_numbers_to_json (ws : list (number flt)) :
  as_numbers (JList (map to_json ws)) = Some ws.
Proof. simpl. apply mapM_fmap_Some. by intros [z|x]. Qed.

Lemma resolve_enum_of (a : callable flt) :
  registry_activation a = true → (resolve_activation (enum_of a)).1 = a.
Proof. by destruct a. Qed.

Lemma as_neuron_saved n :
  ∃ n', as_neuron (saved_neuron n) = Some n'
        ∧ weights n' = weights n ∧ bias n' = bias n
        ∧ activation n' = (resolve_activation (enum_of (activation n))).1.
Proof.
  exists (mkNeuron (weights n) (bias n)
            (resolve_activation (enum_of (activation n))).1
            (resolve_activation (enum_of (activation n))).2 None None None None).
  split; [|done].
  unfold as_neuron, saved_neuron. simpl loaded_weights. simpl loaded_bias.
  rewrite as_numbers_to_json. simpl. by destruct (bias n).
Qed.

Lemma Neuron_process_parameters n n' input :
  parameters n = parameters n' →
  (Neuron_process n input).1 = (Neuron_process n' input).1.
Proof.
  unfold parameters. intros [= Hw Hb Ha]. unfold Neuron_process.
  rewrite Hw, Hb, Ha. case_decide; [|done]. by destruct (call _ _).
Qed.

Lemma process_neurons_parameters ns ns' input :
  map parameters ns = map parameters ns' →
  (process_neurons ns input).1 = (process_neurons ns' input).1.
Proof.
  revert ns'. induction ns as [|n ns IH]; intros [|n' ns']; simpl; try done.
  intros [= Hw Hb Ha Hns].
  assert (parameters n = parameters n') as Hn by (unfold parameters; congruence).
  pose proof (Neuron_process_parameters n n' input Hn) as H1.
  specialize (IH ns' Hns).
  destruct (Neuron_process n input) as [[y|e] n1],
           (Neuron_process n' input) as [[y'|e'] n1']; simpl in *; try congruence.
  destruct (process_neurons ns input) as [[ys|e] ns1],
           (process_neurons ns' input) as [[ys'|e'] ns1']; simpl in *; congruence.
Qed.

Lemma process_layers_parameters ls ls' inputs outputs :
  map (λ layer, map parameters (neurons layer)) ls
  = map (λ layer, map parameters (neurons layer)) ls' →
  (process_layers ls inputs outputs).1 = (process_layers ls' inputs outputs).1.
Proof.
  revert ls' inputs outputs.
  induction ls as [|layer ls IH]; intros [|layer' ls'] inputs outputs; simpl; try done.
  intros [= Hl Hls]. unfold Layer_process.
  pose proof (process_neurons_parameters _ _ inputs Hl) as H1.
  destruct (process_neurons (neurons layer) inputs) as [[outs|e] ns1],
           (process_neurons (neurons layer') inputs) as [[outs'|e'] ns1'];
    simpl in *; try congruence.
  injection H1 as ->. specialize (IH ls' outs' (Some outs') Hls).
  by destruct (process_layers ls outs' (Some outs')), (process_layers ls' outs' (Some outs')).
Qed.

Lemma process_parameters N N' inputs :
  view_of parameters N' = view_of parameters N →
  (process inputs N').1 = (process inputs N).1.
Proof.
  intros Hv. unfold process.
  pose proof (process_layers_parameters _ _ inputs None Hv) as H.
  by destruct (process_layers (layers N') inputs None), (process_layers (layers N) inputs None).
Qed.

Lemma registry_network_topology N N' :
  topology N' = topology N → registry_network N → registry_network N'.
Proof.
  unfold topology, registry_network. destruct N as [ls], N' as [ls']. simpl.
  revert ls'. induction ls as [|layer ls IH]; intros [|layer' ls']; simpl; try done.
  intros [= Hl Hls] Hreg. apply Forall_cons in Hreg as [Hlayer Hrest].
  constructor; [|by apply IH].
  clear -Hl Hlayer. destruct layer as [ns], layer' as [ns']. simpl in *.
  revert ns' Hl. induction Hlayer as [|n ns Hn _ IH]; intros [|n' ns']; simpl; try done.
  intros [= Hlen Ha Hd Hns]. constructor; [congruence | by apply IH].
Qed.

Lemma roundtrip_registry path (fs : gmap string (contents flt)) N :
  registry_network N →
  ∃ loaded N', load path (save path N fs) = Ok loaded
               ∧ as_network loaded = Some N'
               ∧ ∀ inputs, (process inputs N').1 = (process inputs N).1.
Proof.
  intros Hreg. eexists. rewrite load_save.
  assert (∃ ls', mapM (λ entries, mkLayer <$> mapM as_neuron entries)
                   (map (λ layer, map saved_neuron (neurons layer)) (layers N)) = Some ls'
                 ∧ map (λ layer, map parameters (neurons layer)) ls'
                   = map (λ layer, map parameters (neurons layer)) (layers N))
    as (ls' & Hls' & Hpar).
  { unfold registry_network in Hreg. induction Hreg as [|layer ls Hlayer _ IH].
    { by exists []. }
    destruct IH as (ls' & Hls' & Hpar).
    assert (∃ ns', mapM as_neuron (map saved_neuron (neurons layer)) = Some ns'
                   ∧ map parameters ns' = map parameters (neurons layer))
      as (ns' & Hns' & Hpar').
    { clear -Hlayer. induction Hlayer as [|n ns Hn _ IH]; [by exists []|].
      destruct IH as (ns' & Hns' & Hpar').
      destruct (as_neuron_saved n) as (n' & Hn' & Hw & Hb & Ha).
      exists (n' :: ns'). split.
      - simpl. rewrite Hn'. simpl. by rewrite Hns'.
      - simpl. f_equal; [|done]. unfold parameters.
        by rewrite Hw, Hb, Ha, resolve_enum_of. }
    exists (mkLayer ns' :: ls'). split.
    - simpl. rewrite Hns'. simpl. by rewrite Hls'.
    - simpl. by rewrite Hpar', Hpar. }
  exists (mkNetwork ls'). split_and!; [done| |].
  - unfold as_network. by rewrite Hls'.
  - intros inputs. by apply process_parameters.
Qed.

(** C1: for a network of registry activations, before or after a call to
    [train], the file [save] writes loads back, the loaded network has
    numeric weights, and for every input vector its [process] result (the
    outputs, or the exception) is the one of the saved network. *)
Theorem save_load_roundtrip path (fs : gmap string (contents flt)) N N1 :
  registry_network N →
  (N1 = N ∨ ∃ inputs targets learn_rate, N1 = (train inputs targets learn_rate N).2) →
  ∃ loaded N', load path (save path N1 fs) = Ok loaded
               ∧ as_network loaded = Some N'
               ∧ ∀ inputs, (process inputs N').1 = (process inputs N1).1.
Proof.
  intros Hreg HN1. apply roundtrip_registry.
  destruct HN1 as [->|(inputs & targets & lr & ->)]; [done|].
  eapply registry_network_topology; [|exact Hreg].
  apply train_topology.
Qed.

(** *** Running the pieces of [train] *)

Lemma lookup_layer_ok self k layer :
  layers self !! k = Some layer → lookup_layer k self = (Ok layer, self).
Proof. intros Hk. unfold lookup_layer, index. by rewrite Hk. Qed.



Lemma len_neurons_ok self k layer :
  layers self !! k = Some layer → len_neurons k self = (Ok (length (neurons layer)), self).
Proof.
  intros Hk. unfold len_neurons.
  by rewrite (bind_ok _ _ _ _ _ (lookup_layer_ok _ _ _ Hk)).
Qed.











Lemma res_map_cons {A B} (f : A → res B) x xs :
  res_map f (x :: xs)
  = res_bind (f x) (λ y, res_bind (res_map f xs) (λ ys, Ok (y :: ys))).
Proof. reflexivity. Qed.






(** *** The update of the next layer *)










(** *** The error and the delta of a hidden neuron *)


(** *** What a forward pass leaves behind *)





(** *** Loops with an invariant *)



(** *** Reading a network through a view it shares with another *)


Lemma same_view_layer {T} (view : Neuron flt → T) self self' k layer' :
  same_view view self self' →
  layers self' !! k = Some layer' →
  ∃ layer, layers self !! k = Some layer
           ∧ map view (neurons layer') = map view (neurons layer).
Proof.
  unfold same_view, view_of. intros Hv Hk.
  assert ((map (λ layer, map view (neurons layer)) (layers self')) !! k
          = Some (map view (neurons layer'))) as Hk'.
  { change (map ?f ?l) with (f <$> l) at 1. by rewrite list_lookup_fmap, Hk. }
  rewrite Hv in Hk'. change (map ?f ?l) with (f <$> l) in Hk' at 1.
  rewrite list_lookup_fmap in Hk'.
  destruct (layers self !! k) as [layer|]; [|done].
  exists layer. split; [done|]. by injection Hk'.
Qed.


Lemma same_view_length {T} (view : Neuron flt → T) self self' k layer layer' :
  same_view view self self' →
  layers self !! k = Some layer → layers self' !! k = Some layer' →
  length (neurons layer') = length (neurons layer).
Proof.
  intros Hv Hk Hk'. destruct (same_view_layer _ _ _ _ _ Hv Hk') as (layer0 & Hk0 & Hmap).
  rewrite Hk in Hk0. injection Hk0 as <-.
  apply (f_equal length) in Hmap. by rewrite !length_map in Hmap.
Qed.



(** *** The loop over the output layer *)




(** *** One neuron of the backward walk *)




(** *** The backward walk *)











(** *** A whole call to [train] *)

Lemma last_layer_ok self out :
  length (layers self) = S out → last_layer self = (Ok out, self).
Proof. intros Hlen. unfold last_layer. by rewrite Hlen. Qed.





(** ** Further properties *)

(** *** The activation registry *)

(** X1: a STEP neuron's derivative at its own output is that output: 1 when
    the neuron fired, 0 when it did not. *)
Theorem step_derivative_at_output (x : number flt) :
  ∃ y, call ACTIVATION_STEP x = Ok y
       ∧ call DERIVATIVE_STEP y = Ok y
       ∧ (y = Int 0 ∨ y = Int 1).
Proof.
  simpl. destruct (ge0 x); eexists; (split; [reflexivity|]); split; auto.
Qed.

(** X2: the tags of [save] and the chain of [load] are inverse to each
    other on the four registry activations, [load] pairs each of them with
    the derivative [add_layer] pairs it with, and every other activation
    comes back as no activation and no derivative. *)
Theorem resolve_activation_enum_of (a : callable flt) :
  resolve_activation (enum_of a)
  = if registry_activation a then (a, paired_derivative a) else (PyNone, PyNone).
Proof. destruct a; reflexivity. Qed.

Lemma bind_raise' {A B} (m : M flt A) (k : A → M flt B) self e self' :
  m self = (Raise e, self') → (m ≫= k) self = (Raise e, self').
Proof. intros Hm. unfold mbind, M_bind, bind. by rewrite Hm. Qed.

(** *** [load] *)

Lemma res_map_Ok_inv {A B} (f : A → res B) (xs : list A) (ys : list B) :
  res_map f xs = Ok ys → Forall2 (λ x y, f x = Ok y) xs ys.
Proof.
  revert ys. induction xs as [|x xs IH]; intros ys; simpl.
  - intros [= <-]. constructor.
  - destruct (f x) as [y|e] eqn:Hx; simpl; [|done].
    destruct (res_map f xs) as [ys'|e] eqn:Hxs; simpl; [|done].
    intros [= <-]. constructor; [done|]. by apply IH.
Qed.

Lemma res_map_raise {A B} (f : A → res B) (xs : list A) (i : nat) (x : A) e :
  xs !! i = Some x → f x = Raise e → ∃ e', res_map f xs = Raise e'.
Proof.
  revert i. induction xs as [|x0 xs IH]; intros i Hi Hx; [done|].
  rewrite res_map_cons. destruct i as [|i]; simplify_eq/=.
  - rewrite Hx. by eexists.
  - destruct (f x0); simpl; [|by eexists].
    destruct (IH i Hi Hx) as [e' ->]. by eexists.
Qed.

Lemma resolve_activation_paired (tag : json flt) :
  (resolve_activation tag).2 = paired_derivative (resolve_activation tag).1
  ∧ (registry_activation (resolve_activation tag).1 = true
     ∨ (resolve_activation tag).1 = PyNone).
Proof.
  unfold resolve_activation.
  repeat (destruct (eq_int tag _); [simpl; by eauto|]). simpl. by eauto.
Qed.

Lemma load_neuron_Ok (entry : json flt) (loaded : LoadedNeuron flt) :
  load_neuron entry = Ok loaded →
  ∃ tag, getitem entry "weights" = Ok (loaded_weights loaded)
         ∧ getitem entry "bias" = Ok (loaded_bias loaded)
         ∧ getitem entry "activation" = Ok tag
         ∧ loaded_activation loaded = (resolve_activation tag).1
         ∧ loaded_derivative loaded = (resolve_activation tag).2.
Proof.
  unfold load_neuron.
  destruct (getitem entry "weights") as [ws|]; simpl; [|done].
  destruct (getitem entry "bias") as [b|]; simpl; [|done].
  destruct (getitem entry "activation") as [tag|]; simpl; [|done].
  destruct (resolve_activation tag) as [af df] eqn:Htag.
  intros [= <-]. exists tag. simpl. by rewrite Htag.
Qed.

(** X3: whatever file [load] accepts, every neuron it returns is
    consistently paired: its activation is one of the four registry
    functions or [None], never another function, and its derivative is the
    one paired with that activation ([None] with [None]). *)
Theorem load_result_paired path (fs : gmap string (contents flt)) network :
  load path fs = Ok network →
  Forall (Forall (λ neuron, loaded_derivative neuron
                            = paired_derivative (loaded_activation neuron)
                            ∧ (registry_activation (loaded_activation neuron) = true
                               ∨ loaded_activation neuron = PyNone)))
         network.
Proof.
  unfold load. destruct (fs !! path) as [[doc|text]|]; try done.
  destruct (load_document doc) as [net|e] eqn:Hdoc; [|done]. intros [= <-].
  unfold load_document in Hdoc.
  destruct (getitem doc "layers") as [layers_json|]; simpl in Hdoc; [|done].
  destruct (iterate layers_json) as [items|]; simpl in Hdoc; [|done].
  apply res_map_Ok_inv in Hdoc.
  induction Hdoc as [|item loadeds items net Hitem _ IH]; constructor; [|done].
  unfold load_layer in Hitem.
  destruct (getitem item "neurons") as [ns|]; simpl in Hitem; [|done].
  destruct (iterate ns) as [entries|]; simpl in Hitem; [|done].
  apply res_map_Ok_inv in Hitem.
  clear -Hitem. induction Hitem as [|entry loaded entries loadeds Hentry _ IH]; constructor; [|done].
  apply load_neuron_Ok in Hentry as (tag & _ & _ & _ & -> & ->).
  apply resolve_activation_paired.
Qed.

Lemma load_neuron_entry_data (entry : json flt * json flt * json flt) :
  load_neuron (entry_data entry) = Ok (loaded_entry entry).
Proof.
  unfold load_neuron, entry_data, loaded_entry. simpl.
  by destruct (resolve_activation entry.2).
Qed.

(** X4: [load] accepts every document that has the layout [save] writes,
    whatever values stand under "weights", "bias" and "activation": it
    checks neither their type nor that the layers fit each other.  The
    weights and the bias come back verbatim, one neuron per entry and one
    layer per list, in the order of the document. *)
Theorem load_document_of path (fs : gmap string (contents flt)) entries :
  load path (<[path := Document (document_of entries)]> fs)
  = Ok (map (map loaded_entry) entries).
Proof.
  unfold load. rewrite lookup_insert_eq.
  unfold load_document, document_of. simpl.
  rewrite (res_map_fmap_ok _ _ (map loaded_entry)); [done|].
  intros layer_entries. unfold load_layer. simpl.
  apply res_map_fmap_ok, load_neuron_entry_data.
Qed.

(** X5: one incomplete neuron entry anywhere in the document rejects the
    whole file: if some entry of some layer lacks "weights", "bias" or
    "activation", [load] raises the wrapped error and returns no network,
    however many complete entries precede it. *)
Theorem load_rejects_incomplete_entry path (fs : gmap string (contents flt))
    doc layer_items k layer_item entries l entry key e :
  fs !! path = Some (Document doc) →
  getitem doc "layers" = Ok (JList layer_items) →
  layer_items !! k = Some layer_item →
  getitem layer_item "neurons" = Ok (JList entries) →
  entries !! l = Some entry →
  key ∈ ["weights"; "bias"; "activation"] →
  getitem entry key = Raise e →
  load path fs = Raise (InvalidModelFile path).
Proof.
  intros Hfs Hlayers Hk Hneurons Hl Hkey Hentry.
  assert (∃ e', load_neuron entry = Raise e') as [e1 Hn].
  { unfold load_neuron. rewrite !elem_of_cons in Hkey.
    destruct Hkey as [->|[->|[->|Hkey]]]; [| | |by apply elem_of_nil in Hkey].
    - rewrite Hentry. by eexists.
    - destruct (getitem entry "weights"); simpl; [|by eexists].
      rewrite Hentry. by eexists.
    - destruct (getitem entry "weights"); simpl; [|by eexists].
      destruct (getitem entry "bias"); simpl; [|by eexists].
      rewrite Hentry. by eexists. }
  assert (∃ e', load_layer layer_item = Raise e') as [e2 Hlayer].
  { unfold load_layer. rewrite Hneurons. simpl. by eapply res_map_raise. }
  assert (∃ e', load_document doc = Raise e') as [e3 Hdoc].
  { unfold load_document. rewrite Hlayers. simpl. by eapply res_map_raise. }
  unfold load. by rewrite Hfs, Hdoc.
Qed.

(** *** [save], and [save] followed by [load] *)

(** X6: [save] writes every neuron where its position says: the entry of
    neuron [l] of layer [k] holds the neuron's weights and bias verbatim
    and the tag of its activation. *)
Theorem save_writes_fields path N (fs : gmap string (contents flt)) k l layer n :
  layers N !! k = Some layer →
  neurons layer !! l = Some n →
  ∃ doc, save path N fs !! path = Some (Document doc)
         ∧ saved_field doc k l "weights" = Ok (JList (map to_json (weights n)))
         ∧ saved_field doc k l "bias" = Ok (to_json (bias n))
         ∧ saved_field doc k l "activation" = Ok (enum_of (activation n)).
Proof.
  intros Hk Hl. exists (network_data N). split; [apply lookup_insert_eq|].
  unfold saved_field, network_data. simpl.
  rewrite (index_fmap _ _ _ _ Hk). simpl.
  rewrite (index_fmap _ _ _ _ Hl). simpl. done.
Qed.

Lemma network_data_parameters N :
  network_data N
  = JObject [("layers",
              JList (map (λ ps, JObject [("neurons",
                       JList (map (λ p : list (number flt) * number flt * callable flt,
                                     JObject [("weights", JList (map to_json p.1.1));
                                              ("bias", to_json p.1.2);
                                              ("activation", enum_of p.2)]) ps))])
                         (view_of parameters N)))].
Proof.
  unfold network_data, view_of. do 4 f_equal. rewrite map_map.
  apply map_ext. intros layer. unfold layer_data. do 4 f_equal.
  by rewrite map_map.
Qed.

(** X7: the file depends only on the weights, the biases and the
    activations: two networks that agree on these are saved as the same
    file, whatever their derivatives, last inputs and outputs, errors and
    deltas. *)
Theorem save_reads_parameters path N N' (fs : gmap string (contents flt)) :
  view_of parameters N' = view_of parameters N →
  save path N' fs = save path N fs.
Proof.
  intros Hview. unfold save. by rewrite !network_data_parameters, Hview.
Qed.

Lemma as_neuron_saved_neuron n : as_neuron (saved_neuron n) = Some (reloaded_neuron n).
Proof.
  unfold as_neuron, saved_neuron, reloaded_neuron.
  simpl loaded_weights. simpl loaded_bias.
  rewrite as_numbers_to_json. simpl. by destruct (bias n).
Qed.

Lemma load_save_reloaded path N (fs : gmap string (contents flt)) :
  ∃ loaded, load path (save path N fs) = Ok loaded
            ∧ as_network loaded = Some (reloaded N).
Proof.
  eexists. split; [apply load_save|].
  unfold as_network, reloaded.
  assert (mapM (λ entries, mkLayer <$> mapM as_neuron entries)
               (map (λ layer, map saved_neuron (neurons layer)) (layers N))
          = Some (map (λ layer, mkLayer (map reloaded_neuron (neurons layer))) (layers N)))
    as ->; [|done].
  induction (layers N) as [|layer ls IH]; [done|].
  simpl. rewrite IH.
  assert (mapM as_neuron (map saved_neuron (neurons layer))
          = Some (map reloaded_neuron (neurons layer))) as ->; [|done].
  induction (neurons layer) as [|n ns IHn]; [done|].
  simpl. by rewrite as_neuron_saved_neuron, IHn.
Qed.

Lemma enum_of_resolve_activation (a : callable flt) :
  enum_of (resolve_activation (enum_of a)).1 = enum_of a.
Proof. by destruct a. Qed.

(** X8: saving, loading and saving again writes the same file, for every
    network, also one whose activations are not in the registry (they are
    written as null and read back as no activation). *)
Theorem save_load_save path N (fs : gmap string (contents flt)) :
  ∃ loaded N', load path (save path N fs) = Ok loaded
               ∧ as_network loaded = Some N'
               ∧ save path N' fs = save path N fs.
Proof.
  destruct (load_save_reloaded path N fs) as (loaded & Hload & Hcast).
  exists loaded, (reloaded N). split_and!; [done..|].
  unfold save, network_data, reloaded. simpl. do 6 f_equal.
  rewrite map_map. apply map_ext. intros layer. unfold layer_data. simpl.
  do 4 f_equal. rewrite map_map. apply map_ext. intros n.
  unfold neuron_data, reloaded_neuron. simpl.
  by rewrite enum_of_resolve_activation.
Qed.


(** X9: a network whose neurons carry the registry pairs comes back from
    its file exactly: the loaded network is the saved one with the same
    weights, biases, activations and derivatives, and with the transient
    fields of every neuron cleared. *)
Theorem save_load_paired path N (fs : gmap string (contents flt)) :
  paired_network N →
  ∃ loaded, load path (save path N fs) = Ok loaded
            ∧ as_network loaded = Some (fresh N).
Proof.
  intros Hpaired.
  destruct (load_save_reloaded path N fs) as (loaded & Hload & Hcast).
  exists loaded. split; [done|]. rewrite Hcast. f_equal.
  unfold reloaded, fresh. f_equal.
  unfold paired_network in Hpaired.
  induction Hpaired as [|layer ls Hlayer _ IH]; [done|].
  simpl. rewrite IH. do 2 f_equal.
  clear -Hlayer. induction Hlayer as [|n ns [Hreg Hder] _ IH]; [done|].
  simpl. rewrite IH. f_equal.
  unfold reloaded_neuron, fresh_neuron.
  rewrite Hder. revert Hreg. by destruct (activation n).
Qed.

(** *** [add_layer] *)

Lemma last_layer_spec self :
  (layers self = [] ∧ last_layer self = (Raise IndexError, self))
  ∨ (∃ layer, last (layers self) = Some layer
              ∧ last_layer self = (Ok (pred (length (layers self))), self)
              ∧ layers self !! pred (length (layers self)) = Some layer).
Proof.
  unfold last_layer. destruct (layers self) as [|first rest] eqn:Hls using rev_ind.
  - by left.
  - right. exists first. rewrite last_snoc, length_app. simpl.
    rewrite Nat.add_1_r. simpl. split_and!; [done..|].
    by rewrite lookup_app_r, Nat.sub_diag by lia.
Qed.

(** X10: [add_layer] fails in one case only, an unspecified input width on
    a network without layers, and then changes nothing.  In every other
    case it appends exactly one layer after the existing ones, built with
    the given neuron count, with the given input width or, when none is
    given, the NUMBER OF NEURONS of the last layer, with the sigmoid when
    no activation is given, and with the derivative paired with the
    activation ([None] for a function outside the registry). *)
Theorem add_layer_outcome initial num_neurons num_inputs (activation : callable flt) N :
  (num_inputs = None ∧ layers N = []
   ∧ add_layer initial num_neurons num_inputs activation N = (Raise IndexError, N))
  ∨ (∃ width,
       (num_inputs = Some width
        ∨ (num_inputs = None
           ∧ ∃ last_layer, last (layers N) = Some last_layer
                           ∧ width = length (neurons last_layer)))
       ∧ add_layer initial num_neurons num_inputs activation N
         = (Ok tt,
            mkNetwork (layers N ++
                       [Layer_new initial num_neurons width
                                  (default_activation activation)
                                  (paired_derivative (default_activation activation))]))).
Proof.
  unfold add_layer. destruct num_inputs as [width|].
  - right. exists width. split; [by left|]. reflexivity.
  - destruct (last_layer_spec N) as [[Hnil Hlast]|(layer & Hlayer & Hlast & Hlookup)].
    + left. split_and!; [done..|].
      erewrite bind_raise'; [done|]. by erewrite bind_raise'.
    + right. exists (length (neurons layer)). split.
      * right. split; [done|]. by exists layer.
      * erewrite bind_ok; cycle 1.
        { erewrite bind_ok by exact Hlast. by apply len_neurons_ok. }
        reflexivity.
Qed.

(** *** [train] and the first layer *)

Global Instance kept_preorder {T} (g : Network flt → T) : PreOrder (kept g).
Proof.
  split; [by intros self|].
  intros s1 s2 s3 H12 H23. unfold kept in *. congruence.
Qed.

(** A relation that the forward pass and the assignments to [error] and
    [delta] respect everywhere, and the assignments to [weights] and [bias]
    in every layer but the first, is respected by [train]: the backward
    walk writes weights and biases in [layer_next] only, which is never the
    first layer. *)
Section Positional.
Context (R : relation (Network flt)) `{!PreOrder R}.
Hypothesis R_process : ∀ inputs, stable R (process inputs).
Hypothesis R_error : ∀ k l e self, R self (alter_neuron (set_error e) k l self).
Hypothesis R_delta : ∀ k l d self, R self (alter_neuron (set_delta d) k l self).
Hypothesis R_weight : ∀ k l i w self,
  R self (alter_neuron (λ n, set_weights (<[i:=w]> (weights n)) n) (S k) l self).
Hypothesis R_bias : ∀ k l b self, R self (alter_neuron (set_bias b) (S k) l self).

Local Ltac stable_steps :=
  repeat first
    [ apply (stable_ret R) | apply (stable_lift R) | apply (stable_lookup_neuron R)
    | apply (stable_lookup_layer R) | apply (stable_len_neurons R)
    | apply (stable_last_layer R)
    | apply R_process
    | apply (stable_modify_neuron R); solve [auto]
    | apply (stable_for_each R); intros ?
    | apply (stable_for_fold R); intros ? ?
    | apply (stable_bind R); [|intros ?] ].

Lemma stable_train_above_first inputs targets lr : stable R (train inputs targets lr).
Proof.
  unfold train, backward_layer, backward_neuron, update_next_layer, update_neuron,
    update_weight, hidden_error, hidden_delta, output_neuron.
  stable_steps.
Qed.

End Positional.

Lemma first_layer_alter_above f k l self :
  first_layer_parameters (alter_neuron f (S k) l self) = first_layer_parameters self.
Proof.
  unfold first_layer_parameters, view_of, alter_neuron. simpl.
  by destruct (layers self).
Qed.

(** X11: whether [train] returns or raises, the first layer keeps its
    weights, its biases and its activations: the backward walk updates the
    layer after the one it visits, so the first layer of a network is never
    trained. *)
Theorem train_first_layer_fixed inputs targets learn_rate N :
  first_layer_parameters (train inputs targets learn_rate N).2
  = first_layer_parameters N.
Proof.
  apply (stable_train_above_first (kept first_layer_parameters)).
  - intros i self. unfold kept, first_layer_parameters. f_equal.
    by apply stable_process_view.
  - intros. unfold kept, first_layer_parameters. f_equal. by apply view_alter_neuron.
  - intros. unfold kept, first_layer_parameters. f_equal. by apply view_alter_neuron.
  - intros. apply first_layer_alter_above.
  - intros. apply first_layer_alter_above.
Qed.

(** *** The backward walk in closed form *)











(** *** The loop over the output layer, neuron by neuron *)


(** *** A whole call to [train], in closed form *)


Lemma last_layer_lookup self layer :
  last (layers self) = Some layer →
  ∃ out, length (layers self) = S out ∧ layers self !! out = Some layer.
Proof.
  intros Hlast. destruct (layers self) as [|first rest] using rev_ind; [done|].
  rewrite last_snoc in Hlast. injection Hlast as ->.
  exists (length rest). rewrite length_app. simpl. split; [lia|].
  by rewrite lookup_app_r, Nat.sub_diag by lia.
Qed.




(** *** Where the loop over the output layer stops *)






(** *** Targets beyond the output layer *)

Lemma for_fold_ext {A B} (xs : list A) (acc : B) (body body' : B → A → M flt B) self :
  (∀ b x s, x ∈ xs → body b x s = body' b x s) →
  for_fold xs acc body self = for_fold xs acc body' self.
Proof.
  revert acc self. induction xs as [|x xs IH]; intros acc self Hext; [done|].
  simpl. unfold mbind, M_bind, bind. rewrite Hext by apply list_elem_of_here.
  destruct (body' acc x self) as [[acc'|e] self']; [|done].
  apply IH. intros b y s Hy. apply Hext. by apply list_elem_of_further.
Qed.

(** X17: [train] reads one target per output neuron and never looks at the
    others: a target list longer than the output layer is accepted, and
    the call behaves in every respect (result, exception, network left) as
    with the list cut to the size of the output layer. *)
Theorem train_ignores_extra_targets inputs targets learn_rate N layer :
  last (layers N) = Some layer →
  train inputs (take (length (neurons layer)) targets) learn_rate N
  = train inputs targets learn_rate N.
Proof.
  intros (out & Hlen & Hlayer)%last_layer_lookup. unfold train.
  rewrite !(bind_ok _ _ _ _ _ (last_layer_ok _ _ Hlen)).
  pose proof (stable_process_view signature (λ _ _ _, eq_refl) inputs N) as Hsig.
  destruct (process inputs N) as [[outputs|e] N1] eqn:Hprocess; simpl in Hsig.
  - rewrite !(bind_ok _ _ _ _ _ Hprocess).
    destruct (lookup_lt_is_Some_2 (layers N1) out) as [layer1 Hlayer1].
    { apply (f_equal length) in Hsig. unfold view_of in Hsig.
      rewrite !length_map in Hsig. lia. }
    pose proof (same_view_length _ _ _ _ _ _ Hsig Hlayer Hlayer1) as Hcount.
    rewrite !(bind_ok _ _ _ _ _ (len_neurons_ok _ _ _ Hlayer1)).
    unfold mbind at 1 3, M_bind, bind.
    rewrite (for_fold_ext _ _ (output_neuron out (take (length (neurons layer)) targets) outputs)
               (output_neuron out targets outputs)); [done|].
    intros acc k s [_ Hk]%elem_of_seq. unfold output_neuron, index.
    rewrite lookup_take. case_decide; [done|lia].
  - by rewrite !(bind_raise' _ _ _ _ _ Hprocess).
Qed.

(** *** [process] layer by layer *)

Lemma process_layers_outputs layer ls inputs outputs outputs' :
  process_layers (layer :: ls) inputs outputs = process_layers (layer :: ls) inputs outputs'.
Proof. reflexivity. Qed.

Lemma process_layers_app ls1 ls2 inputs outputs outs ls1' :
  ls1 ≠ [] →
  process_layers ls1 inputs outputs = (Ok (Some outs), ls1') →
  process_layers (ls1 ++ ls2) inputs outputs
  = (let (r, ls2') := process_layers ls2 outs (Some outs) in (r, ls1' ++ ls2')).
Proof.
  revert inputs outputs ls1'.
  induction ls1 as [|layer ls1 IH]; intros inputs outputs ls1' Hne Hrun; [done|].
  simpl in *. destruct (Layer_process layer inputs) as [[outs1|e] layer'] eqn:Hlayer; [|done].
  destruct (process_layers ls1 outs1 (Some outs1)) as [r rest'] eqn:Hrest.
  injection Hrun as -> <-.
  destruct ls1 as [|next ls1].
  - simpl in Hrest. injection Hrest as -> <-. simpl.
    by destruct (process_layers ls2 outs (Some outs)).
  - rewrite (IH outs1 (Some outs1) rest'); [|done..].
    by destruct (process_layers ls2 outs (Some outs)).
Qed.

(** X18: the forward pass of a network is the composition of the forward
    passes of its parts: on the layers [ls1 ++ ls2], [process] is
    [process] on [ls1] followed by [process] on [ls2] applied to the
    outputs of [ls1], each part recording its own inputs and outputs. *)
Theorem process_app inputs ls1 ls2 outs N1 :
  process inputs (mkNetwork ls1) = (Ok (Some outs), N1) →
  ls2 ≠ [] →
  process inputs (mkNetwork (ls1 ++ ls2))
  = (let (r, N2) := process outs (mkNetwork ls2) in
     (r, mkNetwork (layers N1 ++ layers N2))).
Proof.
  unfold process. simpl. intros Hrun Hne.
  destruct (process_layers ls1 inputs None) as [r1 ls1'] eqn:H1.
  injection Hrun as -> <-.
  assert (ls1 ≠ []) as Hne1 by (intros ->; simpl in H1; congruence).
  rewrite (process_layers_app _ _ _ _ _ _ Hne1 H1).
  destruct ls2 as [|layer ls2]; [done|].
  rewrite (process_layers_outputs _ _ _ (Some outs) None).
  by destruct (process_layers (layer :: ls2) outs None).
Qed.

(** *** [add_layer] and the registry *)

Lemma add_layer_Ok initial num_neurons num_inputs (activation : callable flt) N N' :
  add_layer initial num_neurons num_inputs activation N = (Ok tt, N') →
  ∃ width,
    N' = mkNetwork (layers N ++
                    [Layer_new initial num_neurons width
                               (default_activation activation)
                               (paired_derivative (default_activation activation))]).
Proof.
  unfold add_layer. destruct num_inputs as [width|].
  - intros [= <-]. by exists width.
  - destruct (last_layer_spec N) as [[Hnil Hlast]|(layer & Hlayer & Hlast & Hlookup)].
    + erewrite bind_raise'; [done|]. by erewrite bind_raise'.
    + erewrite bind_ok; cycle 1.
      { erewrite bind_ok by exact Hlast. by apply len_neurons_ok. }
      intros [= <-]. by eexists.
Qed.

(** X19: [add_layer] keeps a network within the registry: called without
    an activation or with one of the four registry activations, on a
    network whose neurons all carry a registry activation with its paired
    derivative, it leaves such a network (the layer constructor giving
    every new neuron the activation and the derivative it was called
    with). *)
Theorem add_layer_keeps_paired initial num_neurons num_inputs (activation : callable flt) N N' :
  paired_network N →
  activation = PyNone ∨ registry_activation activation = true →
  add_layer initial num_neurons num_inputs activation N = (Ok tt, N') →
  paired_network N'.
Proof.
  intros Hpaired Hact (width & ->)%add_layer_Ok.
  unfold paired_network. simpl. apply Forall_app. split; [done|].
  apply Forall_singleton. unfold Layer_new. simpl. apply Forall_fmap, Forall_forall.
  intros i _. simpl. split; [|done].
  destruct Hact as [->|Hreg]; [done|]. by destruct activation.
Qed.

End Properties.

(** C6, counterexample: the claim that [process] fails on every network
    with zero layers is false; on the empty network it returns. *)
Lemma process_no_layers_does_not_fail :
  ¬ (∀ (N : Network Q) (inputs : list (number Q)),
       layers N = [] → ∃ e N', process inputs N = (Raise e, N')).
Proof.
  intros H. destruct (H (mkNetwork []) [Int 1%Z] eq_refl) as (e & N' & Hp).
  discriminate Hp.
Qed.

(** ** The embedding on concrete networks *)





(** ** Counterexamples *)




(** C5, counterexample: the document with the activation tag 99 loads; the
    result is a network of one neuron without activation. *)
Lemma load_tag_99_succeeds :
  load "model.json" (<["model.json" := Document tag_99]> ∅)
  = Ok [[mkLoaded (JList [JFloat (1 # 10)]) (JInt 0) PyNone PyNone]]
  ∧ load "model.json" (<["model.json" := Document tag_99]> ∅)
    ≠ Raise (InvalidModelFile "model.json").
Proof.
  assert (load "model.json" (<["model.json" := Document tag_99]> ∅)
          = Ok [[mkLoaded (JList [JFloat (1 # 10)]) (JInt 0) PyNone PyNone]]) as Hload.
  { unfold load. rewrite lookup_insert_eq. reflexivity. }
  split; [exact Hload|]. rewrite Hload. discriminate.
Qed.


(** ** Instances of the theorems *)

Lemma save_load_roundtrip_witness :
  registry_network net_three
  ∧ ∃ loaded N',
      load "model.json" (save "model.json" net_three_trained ∅) = Ok loaded
      ∧ as_network loaded = Some N'
      ∧ ∀ inputs, (process inputs N').1 = (process inputs net_three_trained).1.
Proof.
  assert (registry_network net_three) as Hreg by (repeat constructor).
  split; [exact Hreg|].
  apply (save_load_roundtrip "model.json" ∅ net_three net_three_trained Hreg).
  right. exists [Int 1], [Int 1], (Int 1). vm_compute. reflexivity.
Defined.




Lemma load_failure_is_InvalidModelFile_witness :
  load "missing.json" (∅ : gmap string (contents Q)) = Raise (InvalidModelFile "missing.json")
  ∧ load "garbage.json" (<["garbage.json" := Malformed "{"]> (∅ : gmap string (contents Q)))
    = Raise (InvalidModelFile "garbage.json")
  ∧ load "list.json" (<["list.json" := Document (JList [])]> (∅ : gmap string (contents Q)))
    = Raise (InvalidModelFile "list.json")
  ∧ load "model.json" (<["model.json" := Document tag_99]> ∅)
    = Ok [[mkLoaded (JList [JFloat (1 # 10)]) (JInt 0) PyNone PyNone]].
Proof.
  split_and!.
  - apply (proj1 (load_failure_is_InvalidModelFile "missing.json" ∅)). reflexivity.
  - apply (proj1 (proj2 (load_failure_is_InvalidModelFile "garbage.json" _)) "{").
    apply lookup_insert_eq.
  - apply (proj1 (proj2 (proj2 (load_failure_is_InvalidModelFile "list.json" _)))
             (JList []) TypeError).
    + apply lookup_insert_eq.
    + reflexivity.
  - apply (proj2 (proj2 (proj2 (proj2 (load_failure_is_InvalidModelFile "model.json" ∅))))
             (JList [JFloat (1 # 10)]) (JInt 0) (JInt 99)); reflexivity.
Defined.


Lemma save_unknown_activation_null_witness :
  ∃ doc, save "model.json" net_custom ∅ !! "model.json" = Some (Document doc)
         ∧ saved_field doc 0 0 "activation" = Ok JNull.
Proof.
  apply (save_unknown_activation_null "model.json" net_custom ∅ 0 0
           (mkLayer [mkNeuron [Int 1] (Int 0) (Lambda (λ x, mul x x)) PyNone
                              None None None None])
           (mkNeuron [Int 1] (Int 0) (Lambda (λ x, mul x x)) PyNone None None None None));
    reflexivity.
Defined.

(** ** Instances of the further properties *)

Lemma load_result_paired_witness :
  Forall (Forall (λ neuron : LoadedNeuron Q,
            loaded_derivative neuron = paired_derivative (loaded_activation neuron)
            ∧ (registry_activation (loaded_activation neuron) = true
               ∨ loaded_activation neuron = PyNone)))
         [[mkLoaded (JList [JFloat (1 # 10)]) (JInt 0) PyNone PyNone]].
Proof.
  apply (load_result_paired "model.json" (<["model.json" := Document tag_99]> ∅)).
  unfold load. rewrite lookup_insert_eq. reflexivity.
Defined.

Lemma load_rejects_incomplete_entry_witness :
  load "model.json" (<["model.json" := Document doc_no_bias]> ∅)
  = Raise (InvalidModelFile "model.json").
Proof.
  apply (load_rejects_incomplete_entry "model.json" _ doc_no_bias
           [JObject [("neurons",
                      JList [JObject [("weights", JList [JInt 1]);
                                      ("activation", JInt LINEAR)]])]]
           0
           (JObject [("neurons",
                      JList [JObject [("weights", JList [JInt 1]);
                                      ("activation", JInt LINEAR)]])])
           [JObject [("weights", JList [JInt 1]); ("activation", JInt LINEAR)]]
           0
           (JObject [("weights", JList [JInt 1]); ("activation", JInt LINEAR)])
           "bias" KeyError).
  - apply lookup_insert_eq.
  - reflexivity.
  - reflexivity.
  - reflexivity.
  - reflexivity.
  - apply list_elem_of_further, list_elem_of_here.
  - reflexivity.
Defined.

Lemma save_writes_fields_witness :
  ∃ doc, save "model.json" net_two ∅ !! "model.json" = Some (Document doc)
         ∧ saved_field doc 1 0 "weights" = Ok (JList (map to_json [Int 3]))
         ∧ saved_field doc 1 0 "bias" = Ok (to_json (Int 0))
         ∧ saved_field doc 1 0 "activation" = Ok (enum_of ACTIVATION_LINEAR).
Proof.
  apply (save_writes_fields "model.json" net_two ∅ 1 0
           (mkLayer [linear_neuron [3%Z] 0]) (linear_neuron [3%Z] 0)); reflexivity.
Defined.

Lemma save_reads_parameters_witness :
  save "model.json" (train [Int 1] [] (Int 1) net_two).2 ∅ = save "model.json" net_two ∅.
Proof.
  apply (save_reads_parameters "model.json" net_two
           (train [Int 1] [] (Int 1) net_two).2 ∅).
  reflexivity.
Defined.

Lemma save_load_paired_witness :
  ∃ loaded, load "model.json" (save "model.json" net_three_trained ∅) = Ok loaded
            ∧ as_network loaded = Some (fresh net_three_trained).
Proof.
  apply (save_load_paired "model.json" net_three_trained ∅).
  repeat constructor.
Defined.





Lemma train_ignores_extra_targets_witness :
  train [Int 1] (take (length (neurons (mkLayer [linear_neuron [3%Z] 0]))) [Int 5; Int 7])
        (Int 1) net_two
  = train [Int 1] [Int 5; Int 7] (Int 1) net_two.
Proof.
  apply (train_ignores_extra_targets [Int 1] [Int 5; Int 7] (Int 1) net_two
           (mkLayer [linear_neuron [3%Z] 0])).
  reflexivity.
Defined.

Lemma process_app_witness :
  process [Int 1] (mkNetwork ([mkLayer [linear_neuron [1%Z] 0]]
                              ++ [mkLayer [linear_neuron [3%Z] 0]]))
  = (let (r, N2) := process [Int 1] (mkNetwork [mkLayer [linear_neuron [3%Z] 0]]) in
     (r, mkNetwork (layers (process [Int 1] (mkNetwork [mkLayer [linear_neuron [1%Z] 0]])).2
                    ++ layers N2))).
Proof.
  apply (process_app [Int 1] [mkLayer [linear_neuron [1%Z] 0]]
           [mkLayer [linear_neuron [3%Z] 0]] [Int 1]
           (process [Int 1] (mkNetwork [mkLayer [linear_neuron [1%Z] 0]])).2).
  - reflexivity.
  - discriminate.
Defined.

Lemma add_layer_keeps_paired_witness :
  paired_network (add_layer zeros 2 None PyNone net_two).2.
Proof.
  apply (add_layer_keeps_paired zeros 2 None PyNone net_two
           (add_layer zeros 2 None PyNone net_two).2).
  - repeat constructor.
  - by left.
  - reflexivity.
Defined.

